(** * The metric instrument facade of [api/metric/sync.go]

    A shallow embedding of the synchronous and asynchronous instrument
    handles, of measurements, and of the checked construction of handles
    ([checkNewSync], [checkNewAsync] and the six typed [wrap*] functions).

    The facade records nothing itself: it calls the methods of interface
    values supplied by an SDK.  A Go interface value is nil, or holds an
    object with methods, or holds a nil pointer; calling a method through
    a nil interface or a nil pointer panics.  Method calls therefore run
    in a small monad over a machine
    made of the SDK's own state and of the log of the calls the facade
    issued, and they either return or panic. *)

From Stdlib Require Import ZArith List String Lia PrimFloat.
Import ListNotations.

Local Open Scope string_scope.
Local Open Scope list_scope.

Set Implicit Arguments.

(** ** Values carried through the facade *)

(** Go's [int64] and [float64].  A [float64] is Rocq's binary64 float; an
    [int64] is carried as the integer it denotes.  No function of this file
    computes with either, so no wrap-around and no rounding arises. *)
Definition int64 : Type := Z.
Definition float64 : Type := float.

(** Modelled from the spec: the declaration of [Number] and its constructors
    [NewInt64Number] and [NewFloat64Number] live in another file of the
    package.  The specification describes the numeric value as a tagged
    union of a 64-bit signed integer and a 64-bit floating-point quantity,
    built by exactly two constructors, each fixing the kind, with no
    conversion between kinds. *)
Inductive NumberKind : Type :=
| Int64NumberKind
| Float64NumberKind.

Inductive Number : Type :=
| Int64Number (v : int64)
| Float64Number (v : float64).

Definition NewInt64Number (value : int64) : Number := Int64Number value.
Definition NewFloat64Number (value : float64) : Number := Float64Number value.

Definition Number_Kind (n : Number) : NumberKind :=
  match n with
  | Int64Number _ => Int64NumberKind
  | Float64Number _ => Float64NumberKind
  end.

Definition Number_AsInt64 (n : Number) : option int64 :=
  match n with
  | Int64Number v => Some v
  | Float64Number _ => None
  end.

Definition Number_AsFloat64 (n : Number) : option float64 :=
  match n with
  | Int64Number _ => None
  | Float64Number v => Some v
  end.

(** ** Errors *)

(** The dynamic value behind a non-nil [error].  [errors.New] allocates, so
    an error made by it is identified by its allocation and carries its
    text. *)
Record errorString : Type := {
  err_alloc : nat;
  err_text : string
}.

(** The interface type [error]: [None] is nil. *)
Definition error : Type := option errorString.

Definition errors_New (alloc : nat) (text : string) : error :=
  Some {| err_alloc := alloc; err_text := text |}.

(** [var ErrSDKReturnedNilImpl = errors.New("SDK returned a nil implementation")],
    the package-level allocation. *)
Definition ErrSDKReturnedNilImpl : error :=
  errors_New 0 "SDK returned a nil implementation".

(** ** Go calls that return or panic *)

Section Exec.

Variable Mach : Type.

(** A Go call either returns a value or panics, in both cases leaving a
    machine behind. *)
Inductive Outcome (A : Type) : Type :=
| Returned (a : A) (m : Mach)
| Panicked (m : Mach).

Definition M (A : Type) : Type := Mach -> Outcome A.

Definition ret {A : Type} (a : A) : M A := fun m => Returned a m.

Definition seq {A B : Type} (c : M A) (k : A -> M B) : M B :=
  fun m =>
    match c m with
    | Returned a m' => k a m'
    | Panicked _ m' => Panicked B m'
    end.

Definition machine_of {A : Type} (o : Outcome A) : Mach :=
  match o with
  | Returned _ m => m
  | Panicked _ m => m
  end.

Definition returns {A : Type} (o : Outcome A) : bool :=
  match o with
  | Returned _ _ => true
  | Panicked _ _ => false
  end.

End Exec.

Arguments Returned {Mach A} a m.
Arguments Panicked {Mach A} m.
Arguments ret {Mach A} a.

Declare Scope go_scope.
Delimit Scope go_scope with go.
Notation "x <- c ;; k" := (seq c (fun x => k))
  (at level 61, c at next level, right associativity) : go_scope.
Notation "c ;;; k" := (seq c (fun _ => k))
  (at level 61, right associativity) : go_scope.

(** ** Interface values *)

(** What a non-nil Go interface value holds: an object on which the methods
    of the interface run, or a nil pointer of an implementing type on which
    they cannot run, so that a call through it panics.  An interface value
    is an [option] of this: [None] is the nil interface, the only value
    that [== nil] holds of. *)
Inductive dynamic (Obj : Type) : Type :=
| object (o : Obj)
| nil_pointer.

Arguments object {Obj} o.
Arguments nil_pointer {Obj}.

(** ** Capability interfaces and the structs of the file *)

Section Facade.

(** The SDK's state, the type of [context.Context] values and the type of
    [kv.KeyValue] labels.  The facade is parametric in all three: it can
    neither inspect nor build a value of these types. *)
Variables World context_Context kv_KeyValue : Type.

(** Modelled from the spec: the interface declarations [BoundSyncImpl],
    [SyncImpl] and [AsyncImpl] live in another file of the package.  The
    specification gives the bound synchronous instrument record-one
    (context, value) and release; the synchronous instrument
    produce-a-bound-instrument (label set) and record-one (context,
    value, label set); and the asynchronous instrument record-one
    (context, value, label set), which only a collector calls.  A method
    is a transformer of the SDK's state. *)
Record BoundSyncImplObj : Type := {
  BoundSyncImpl_RecordOne : context_Context -> Number -> World -> World;
  BoundSyncImpl_Unbind : World -> World
}.

(** An interface value: [None] is the nil interface. *)
Definition BoundSyncImpl : Type := option (dynamic BoundSyncImplObj).

Record SyncImplObj : Type := {
  SyncImpl_Bind : list kv_KeyValue -> World -> BoundSyncImpl * World;
  SyncImpl_RecordOne :
    context_Context -> Number -> list kv_KeyValue -> World -> World
}.

Definition SyncImpl : Type := option (dynamic SyncImplObj).

Record AsyncImplObj : Type := {
  AsyncImpl_RecordOne :
    context_Context -> Number -> list kv_KeyValue -> World -> World
}.

Definition AsyncImpl : Type := option (dynamic AsyncImplObj).

(** Modelled from the spec: [NoopSync], its bound instrument and
    [NoopAsync] are declared in another file of the package.  The
    specification describes them as stateless implementations whose
    operations are valid to call but produce no observable effect. *)
Definition NoopBound : BoundSyncImplObj := {|
  BoundSyncImpl_RecordOne := fun _ _ w => w;
  BoundSyncImpl_Unbind := fun w => w
|}.

Definition NoopSync : SyncImplObj := {|
  SyncImpl_Bind := fun _ w => (Some (object NoopBound), w);
  SyncImpl_RecordOne := fun _ _ _ w => w
|}.

Definition NoopAsync : AsyncImplObj := {|
  AsyncImpl_RecordOne := fun _ _ _ w => w
|}.

(** *** Structs *)

Record Measurement : Type := {
  Measurement_number : Number;
  Measurement_instrument : SyncImpl
}.

Record syncInstrument : Type := {
  syncInstrument_instrument : SyncImpl
}.

Record syncBoundInstrument : Type := {
  syncBoundInstrument_boundInstrument : BoundSyncImpl
}.

Record asyncInstrument : Type := {
  asyncInstrument_instrument : AsyncImpl
}.

(** Modelled from the spec: [Observation] is declared in another file of
    the package; the specification gives it the structure of a
    measurement, with an asynchronous instrument. *)
Record Observation : Type := {
  Observation_number : Number;
  Observation_instrument : AsyncImpl
}.

(** The typed handles embed the shared handle of their kind; their
    declarations live in the files of each instrument. *)
Record Int64Counter : Type := {
  Int64Counter_syncInstrument : syncInstrument
}.

Record Float64Counter : Type := {
  Float64Counter_syncInstrument : syncInstrument
}.

Record Int64Measure : Type := {
  Int64Measure_syncInstrument : syncInstrument
}.

Record Float64Measure : Type := {
  Float64Measure_syncInstrument : syncInstrument
}.

Record Int64Observer : Type := {
  Int64Observer_asyncInstrument : asyncInstrument
}.

Record Float64Observer : Type := {
  Float64Observer_asyncInstrument : asyncInstrument
}.

(** ** The machine: SDK state and the log of interface calls *)

(** One entry per method call the facade makes through an interface
    value, with the receiver and the arguments as passed; a [Bind] entry
    also keeps what the SDK returned. *)
Inductive Call : Type :=
| Call_Bind (i : SyncImplObj) (labels : list kv_KeyValue)
    (result : BoundSyncImpl)
| Call_RecordOne (i : SyncImplObj) (ctx : context_Context)
    (number : Number) (labels : list kv_KeyValue)
| Call_BoundRecordOne (b : BoundSyncImplObj) (ctx : context_Context)
    (number : Number)
| Call_Unbind (b : BoundSyncImplObj).

Record Machine : Type := {
  world : World;
  calls : list Call
}.

Definition boot (w : World) : Machine := {| world := w; calls := [] |}.

(** Dynamic dispatch of each interface method: a call through the nil
    interface panics, and so does a call through a nil pointer; a call
    through an object is logged and runs the SDK's method on the SDK's
    state. *)
Definition invoke_Bind (i : SyncImpl) (labels : list kv_KeyValue)
  : M Machine BoundSyncImpl :=
  fun m =>
    match i with
    | None | Some nil_pointer => Panicked m
    | Some (object obj) =>
        let (b, w) := SyncImpl_Bind obj labels (world m) in
        Returned b
          {| world := w; calls := calls m ++ [Call_Bind obj labels b] |}
    end.

Definition invoke_RecordOne (i : SyncImpl) (ctx : context_Context)
  (number : Number) (labels : list kv_KeyValue) : M Machine unit :=
  fun m =>
    match i with
    | None | Some nil_pointer => Panicked m
    | Some (object obj) =>
        Returned tt
          {| world := SyncImpl_RecordOne obj ctx number labels (world m);
             calls := calls m ++ [Call_RecordOne obj ctx number labels] |}
    end.

Definition invoke_BoundRecordOne (b : BoundSyncImpl)
  (ctx : context_Context) (number : Number) : M Machine unit :=
  fun m =>
    match b with
    | None | Some nil_pointer => Panicked m
    | Some (object obj) =>
        Returned tt
          {| world := BoundSyncImpl_RecordOne obj ctx number (world m);
             calls := calls m ++ [Call_BoundRecordOne obj ctx number] |}
    end.

Definition invoke_Unbind (b : BoundSyncImpl) : M Machine unit :=
  fun m =>
    match b with
    | None | Some nil_pointer => Panicked m
    | Some (object obj) =>
        Returned tt
          {| world := BoundSyncImpl_Unbind obj (world m);
             calls := calls m ++ [Call_Unbind obj] |}
    end.

(** ** The functions of [sync.go] *)

(** [func (m Measurement) SyncImpl() SyncImpl] *)
Definition Measurement_SyncImpl (m : Measurement) : SyncImpl :=
  Measurement_instrument m.

(** [func (m Measurement) Number() Number] *)
Definition Measurement_Number (m : Measurement) : Number :=
  Measurement_number m.

(** [func (m Observation) AsyncImpl() AsyncImpl] *)
Definition Observation_AsyncImpl (m : Observation) : AsyncImpl :=
  Observation_instrument m.

(** [func (m Observation) Number() Number] *)
Definition Observation_Number (m : Observation) : Number :=
  Observation_number m.

(** [func (a asyncInstrument) AsyncImpl() AsyncImpl] *)
Definition asyncInstrument_AsyncImpl (a : asyncInstrument) : AsyncImpl :=
  asyncInstrument_instrument a.

(** [func (s syncInstrument) SyncImpl() SyncImpl] *)
Definition syncInstrument_SyncImpl (s : syncInstrument) : SyncImpl :=
  syncInstrument_instrument s.

Definition newSyncBoundInstrument (boundInstrument : BoundSyncImpl)
  : syncBoundInstrument :=
  {| syncBoundInstrument_boundInstrument := boundInstrument |}.

Definition newMeasurement (instrument : SyncImpl) (number : Number)
  : Measurement :=
  {| Measurement_instrument := instrument;
     Measurement_number := number |}.

(** [func (s syncInstrument) bind(labels []kv.KeyValue) syncBoundInstrument] *)
Definition syncInstrument_bind (s : syncInstrument)
  (labels : list kv_KeyValue) : M Machine syncBoundInstrument :=
  (b <- invoke_Bind (syncInstrument_instrument s) labels ;;
   ret (newSyncBoundInstrument b))%go.

(** [func (s syncInstrument) float64Measurement(value float64) Measurement] *)
Definition syncInstrument_float64Measurement (s : syncInstrument)
  (value : float64) : Measurement :=
  newMeasurement (syncInstrument_instrument s) (NewFloat64Number value).

(** [func (s syncInstrument) int64Measurement(value int64) Measurement] *)
Definition syncInstrument_int64Measurement (s : syncInstrument)
  (value : int64) : Measurement :=
  newMeasurement (syncInstrument_instrument s) (NewInt64Number value).

(** The two constructors as calls on the machine.  Their bodies read the
    field [s.instrument], build a number and build a struct; no step of
    them is a method call through an interface value. *)
Definition syncInstrument_float64Measurement_call (s : syncInstrument)
  (value : float64) : M Machine Measurement :=
  ret (syncInstrument_float64Measurement s value).

Definition syncInstrument_int64Measurement_call (s : syncInstrument)
  (value : int64) : M Machine Measurement :=
  ret (syncInstrument_int64Measurement s value).

(** [func (s syncInstrument) directRecord(ctx, number, labels)] *)
Definition syncInstrument_directRecord (s : syncInstrument)
  (ctx : context_Context) (number : Number) (labels : list kv_KeyValue)
  : M Machine unit :=
  invoke_RecordOne (syncInstrument_instrument s) ctx number labels.

(** [func (h syncBoundInstrument) directRecord(ctx, number)] *)
Definition syncBoundInstrument_directRecord (h : syncBoundInstrument)
  (ctx : context_Context) (number : Number) : M Machine unit :=
  invoke_BoundRecordOne (syncBoundInstrument_boundInstrument h) ctx number.

(** [func (h syncBoundInstrument) Unbind()] *)
Definition syncBoundInstrument_Unbind (h : syncBoundInstrument)
  : M Machine unit :=
  invoke_Unbind (syncBoundInstrument_boundInstrument h).

(** [func checkNewAsync(instrument AsyncImpl, err error) (asyncInstrument, error)] *)
Definition checkNewAsync (instrument : AsyncImpl) (err : error)
  : asyncInstrument * error :=
  match instrument with
  | None =>
      let err :=
        match err with
        | None => ErrSDKReturnedNilImpl
        | Some _ => err
        end in
      let instrument := Some (object NoopAsync) in
      ({| asyncInstrument_instrument := instrument |}, err)
  | Some _ => ({| asyncInstrument_instrument := instrument |}, err)
  end.

(** [func checkNewSync(instrument SyncImpl, err error) (syncInstrument, error)] *)
Definition checkNewSync (instrument : SyncImpl) (err : error)
  : syncInstrument * error :=
  match instrument with
  | None =>
      let err :=
        match err with
        | None => ErrSDKReturnedNilImpl
        | Some _ => err
        end in
      let instrument := Some (object NoopSync) in
      ({| syncInstrument_instrument := instrument |}, err)
  | Some _ => ({| syncInstrument_instrument := instrument |}, err)
  end.

Definition wrapInt64CounterInstrument (syncInst : SyncImpl) (err : error)
  : Int64Counter * error :=
  let (common, err) := checkNewSync syncInst err in
  ({| Int64Counter_syncInstrument := common |}, err).

Definition wrapFloat64CounterInstrument (syncInst : SyncImpl) (err : error)
  : Float64Counter * error :=
  let (common, err) := checkNewSync syncInst err in
  ({| Float64Counter_syncInstrument := common |}, err).

Definition wrapInt64MeasureInstrument (syncInst : SyncImpl) (err : error)
  : Int64Measure * error :=
  let (common, err) := checkNewSync syncInst err in
  ({| Int64Measure_syncInstrument := common |}, err).

Definition wrapFloat64MeasureInstrument (syncInst : SyncImpl) (err : error)
  : Float64Measure * error :=
  let (common, err) := checkNewSync syncInst err in
  ({| Float64Measure_syncInstrument := common |}, err).

Definition wrapInt64ObserverInstrument (asyncInst : AsyncImpl) (err : error)
  : Int64Observer * error :=
  let (common, err) := checkNewAsync asyncInst err in
  ({| Int64Observer_asyncInstrument := common |}, err).

Definition wrapFloat64ObserverInstrument (asyncInst : AsyncImpl)
  (err : error) : Float64Observer * error :=
  let (common, err) := checkNewAsync asyncInst err in
  ({| Float64Observer_asyncInstrument := common |}, err).

(** ** The method set of the unbound handle, as calls on the machine *)

Inductive syncMethod : Type :=
| Method_SyncImpl
| Method_bind (labels : list kv_KeyValue)
| Method_float64Measurement (value : float64)
| Method_int64Measurement (value : int64)
| Method_directRecord (ctx : context_Context) (number : Number)
    (labels : list kv_KeyValue).

Inductive syncValue : Type :=
| Value_SyncImpl (i : SyncImpl)
| Value_syncBoundInstrument (h : syncBoundInstrument)
| Value_Measurement (x : Measurement)
| Value_none.

(** A method whose body only builds a value returns it at once; the two
    methods that call the SDK run in the machine. *)
Definition syncInstrument_call (s : syncInstrument) (f : syncMethod)
  : M Machine syncValue :=
  match f with
  | Method_SyncImpl => ret (Value_SyncImpl (syncInstrument_SyncImpl s))
  | Method_bind labels =>
      (h <- syncInstrument_bind s labels ;;
       ret (Value_syncBoundInstrument h))%go
  | Method_float64Measurement value =>
      ret (Value_Measurement (syncInstrument_float64Measurement s value))
  | Method_int64Measurement value =>
      ret (Value_Measurement (syncInstrument_int64Measurement s value))
  | Method_directRecord ctx number labels =>
      (syncInstrument_directRecord s ctx number labels ;;;
       ret Value_none)%go
  end.

(** ** Two uses of a bound handle *)

(** Bind, then record once through the bound handle. *)
Definition record_through_bind (s : syncInstrument)
  (labels : list kv_KeyValue) (ctx : context_Context) (number : Number)
  : M Machine unit :=
  (h <- syncInstrument_bind s labels ;;
   syncBoundInstrument_directRecord h ctx number)%go.

(** Bind, record once through the bound handle, then unbind it. *)
Definition bind_record_unbind (s : syncInstrument)
  (labels : list kv_KeyValue) (ctx : context_Context) (number : Number)
  : M Machine unit :=
  (h <- syncInstrument_bind s labels ;;
   syncBoundInstrument_directRecord h ctx number ;;;
   syncBoundInstrument_Unbind h)%go.

(** ** What a log of calls amounts to *)

(** The recordings a log hands to the SDK: a recording of [number] under
    [labels] with [ctx] on instrument [i] is delivered either by one
    [RecordOne] on [i] with the labels, or by a [Bind] on [i] with the
    labels followed by a [RecordOne] on the bound instrument that this
    [Bind] returned. *)
Inductive delivers (log : list Call)
  : SyncImplObj -> context_Context -> Number -> list kv_KeyValue -> Prop :=
| delivers_unbound i ctx number labels :
    In (Call_RecordOne i ctx number labels) log ->
    delivers log i ctx number labels
| delivers_bound i ctx number labels b before between after :
    log = before ++ Call_Bind i labels (Some (object b))
                 :: between ++ Call_BoundRecordOne b ctx number :: after ->
    delivers log i ctx number labels.

Definition is_Bind (c : Call) : bool :=
  match c with Call_Bind _ _ _ => true | _ => false end.

Definition is_RecordOne (c : Call) : bool :=
  match c with
  | Call_RecordOne _ _ _ _ | Call_BoundRecordOne _ _ _ => true
  | _ => false
  end.

Definition is_Unbind (c : Call) : bool :=
  match c with Call_Unbind _ => true | _ => false end.

Definition count (p : Call -> bool) (log : list Call) : nat :=
  List.length (filter p log).

(** ** Callers' compositions of the handle methods *)

(** A caller's loop over a bound handle: one [directRecord] per number, in
    order. *)
Fixpoint record_each (h : syncBoundInstrument) (ctx : context_Context)
  (numbers : list Number) : M Machine unit :=
  match numbers with
  | [] => ret tt
  | number :: rest =>
      (syncBoundInstrument_directRecord h ctx number ;;;
       record_each h ctx rest)%go
  end.

(** Binding the same handle twice. *)
Definition bind_twice (s : syncInstrument) (labels1 labels2 : list kv_KeyValue)
  : M Machine (syncBoundInstrument * syncBoundInstrument) :=
  (h1 <- syncInstrument_bind s labels1 ;;
   h2 <- syncInstrument_bind s labels2 ;;
   ret (h1, h2))%go.

(** Using a bound handle after it was unbound. *)
Definition unbind_then_record (h : syncBoundInstrument)
  (ctx : context_Context) (number : Number) : M Machine unit :=
  (syncBoundInstrument_Unbind h ;;;
   syncBoundInstrument_directRecord h ctx number)%go.

Definition unbind_twice (h : syncBoundInstrument) : M Machine unit :=
  (syncBoundInstrument_Unbind h ;;; syncBoundInstrument_Unbind h)%go.

End Facade.

Arguments NoopBound {World context_Context}.
Arguments NoopSync {World context_Context kv_KeyValue}.
Arguments NoopAsync {World context_Context kv_KeyValue}.
Arguments boot {World context_Context kv_KeyValue} w.
Arguments Value_none {World context_Context kv_KeyValue}.
Arguments Call_BoundRecordOne {World context_Context kv_KeyValue} b ctx number.
Arguments Call_Unbind {World context_Context kv_KeyValue} b.
Arguments invoke_BoundRecordOne {World context_Context kv_KeyValue}
  b ctx number _.
Arguments invoke_Unbind {World context_Context kv_KeyValue} b _.
Arguments syncBoundInstrument_directRecord {World context_Context kv_KeyValue}
  h ctx number _.
Arguments syncBoundInstrument_Unbind {World context_Context kv_KeyValue} h _.
Arguments record_each {World context_Context kv_KeyValue} h ctx numbers _.
Arguments unbind_then_record {World context_Context kv_KeyValue}
  h ctx number _.
Arguments unbind_twice {World context_Context kv_KeyValue} h _.
Arguments Method_SyncImpl {context_Context kv_KeyValue}.
Arguments Method_bind {context_Context kv_KeyValue} labels.
Arguments Method_float64Measurement {context_Context kv_KeyValue} value.
Arguments Method_int64Measurement {context_Context kv_KeyValue} value.
Arguments Method_directRecord {context_Context kv_KeyValue} ctx number labels.

(** ** A recording SDK, for running the facade *)

Module Mock.

(** What the recording SDK keeps: every bind, every recording with the
    labels it is filed under, and every release. *)
Inductive Entry : Type :=
| Bound (labels : list (string * string))
| Recorded (ctx : nat) (number : Number) (labels : list (string * string))
| Released (labels : list (string * string)).

Definition World : Type := list Entry.

Definition bound (labels : list (string * string))
  : BoundSyncImplObj World nat := {|
  BoundSyncImpl_RecordOne := fun ctx number w =>
    w ++ [Recorded ctx number labels];
  BoundSyncImpl_Unbind := fun w => w ++ [Released labels]
|}.

Definition counter : SyncImplObj World nat (string * string) := {|
  SyncImpl_Bind := fun labels w => (Some (object (bound labels)), w ++ [Bound labels]);
  SyncImpl_RecordOne := fun ctx number labels w =>
    w ++ [Recorded ctx number labels]
|}.

Definition observer : AsyncImplObj World nat (string * string) := {|
  AsyncImpl_RecordOne := fun ctx number labels w =>
    w ++ [Recorded ctx number labels]
|}.

Definition failure : error := errors_New 7 "duplicate instrument name".

Definition kv : list (string * string) := [("k", "v")].

(** An SDK that notes the bind and answers it with a nil bound
    instrument. *)
Definition unbindable : SyncImplObj World nat (string * string) := {|
  SyncImpl_Bind := fun labels w => (None, w ++ [Bound labels]);
  SyncImpl_RecordOne := fun ctx number labels w =>
    w ++ [Recorded ctx number labels]
|}.

End Mock.

(** * Properties *)

Section Construction.

Variables World context_Context kv_KeyValue : Type.

Local Abbreviation SyncObj := (SyncImplObj World context_Context kv_KeyValue).
Local Abbreviation AsyncObj := (AsyncImplObj World context_Context kv_KeyValue).
Local Abbreviation Sync := (SyncImpl World context_Context kv_KeyValue).
Local Abbreviation Async := (AsyncImpl World context_Context kv_KeyValue).

(** The two checks, case by case on the interface value. *)
Lemma checkNewSync_present (I : SyncObj) (E : error) :
  checkNewSync (Some (object I)) E = ({| syncInstrument_instrument := Some (object I) |}, E).
Proof. reflexivity. Qed.


Lemma checkNewSync_absent (E : error) :
  checkNewSync (None : Sync) E =
  ({| syncInstrument_instrument := Some (object NoopSync) |},
   match E with None => ErrSDKReturnedNilImpl | Some _ => E end).
Proof. reflexivity. Qed.

Lemma checkNewAsync_absent (E : error) :
  checkNewAsync (None : Async) E =
  ({| asyncInstrument_instrument := Some (object NoopAsync) |},
   match E with None => ErrSDKReturnedNilImpl | Some _ => E end).
Proof. reflexivity. Qed.

Lemma ErrSDKReturnedNilImpl_not_nil : ErrSDKReturnedNilImpl <> None.
Proof. discriminate. Qed.

(** Each typed wrapper is its check followed by the struct literal. *)
Lemma wrapInt64CounterInstrument_unfold (i : Sync) (e : error) :
  wrapInt64CounterInstrument i e =
  ({| Int64Counter_syncInstrument := fst (checkNewSync i e) |},
   snd (checkNewSync i e)).
Proof.
  unfold wrapInt64CounterInstrument.
  destruct (checkNewSync i e); reflexivity.
Qed.

Lemma wrapFloat64CounterInstrument_unfold (i : Sync) (e : error) :
  wrapFloat64CounterInstrument i e =
  ({| Float64Counter_syncInstrument := fst (checkNewSync i e) |},
   snd (checkNewSync i e)).
Proof.
  unfold wrapFloat64CounterInstrument.
  destruct (checkNewSync i e); reflexivity.
Qed.

Lemma wrapInt64MeasureInstrument_unfold (i : Sync) (e : error) :
  wrapInt64MeasureInstrument i e =
  ({| Int64Measure_syncInstrument := fst (checkNewSync i e) |},
   snd (checkNewSync i e)).
Proof.
  unfold wrapInt64MeasureInstrument.
  destruct (checkNewSync i e); reflexivity.
Qed.

Lemma wrapFloat64MeasureInstrument_unfold (i : Sync) (e : error) :
  wrapFloat64MeasureInstrument i e =
  ({| Float64Measure_syncInstrument := fst (checkNewSync i e) |},
   snd (checkNewSync i e)).
Proof.
  unfold wrapFloat64MeasureInstrument.
  destruct (checkNewSync i e); reflexivity.
Qed.

Lemma wrapInt64ObserverInstrument_unfold (i : Async) (e : error) :
  wrapInt64ObserverInstrument i e =
  ({| Int64Observer_asyncInstrument := fst (checkNewAsync i e) |},
   snd (checkNewAsync i e)).
Proof.
  unfold wrapInt64ObserverInstrument.
  destruct (checkNewAsync i e); reflexivity.
Qed.

Lemma wrapFloat64ObserverInstrument_unfold (i : Async) (e : error) :
  wrapFloat64ObserverInstrument i e =
  ({| Float64Observer_asyncInstrument := fst (checkNewAsync i e) |},
   snd (checkNewAsync i e)).
Proof.
  unfold wrapFloat64ObserverInstrument.
  destruct (checkNewAsync i e); reflexivity.
Qed.

Create Rewrite HintDb wrap.
Hint Rewrite wrapInt64CounterInstrument_unfold
  wrapFloat64CounterInstrument_unfold wrapInt64MeasureInstrument_unfold
  wrapFloat64MeasureInstrument_unfold wrapInt64ObserverInstrument_unfold
  wrapFloat64ObserverInstrument_unfold : wrap.


(** C2.  When the SDK hands over a nil implementation, both checks return
    a handle on the built-in no-op; the error returned is the SDK's own
    error when it gave one, the sentinel [ErrSDKReturnedNilImpl] when it
    gave none, and so is never nil. *)
Theorem absent_implementation_gives_noop_and_an_error
  (E : error) (e : errorString) :
  (syncInstrument_SyncImpl (fst (checkNewSync (None : Sync) E))
     = Some (object NoopSync) /\
   asyncInstrument_AsyncImpl (fst (checkNewAsync (None : Async) E))
     = Some (object NoopAsync)) /\
  (snd (checkNewSync (None : Sync) (Some e)) = Some e /\
   snd (checkNewAsync (None : Async) (Some e)) = Some e) /\
  (snd (checkNewSync (None : Sync) None) = ErrSDKReturnedNilImpl /\
   snd (checkNewAsync (None : Async) None) = ErrSDKReturnedNilImpl) /\
  (snd (checkNewSync (None : Sync) E) <> None /\
   snd (checkNewAsync (None : Async) E) <> None).
Proof.
  rewrite !checkNewSync_absent, !checkNewAsync_absent; cbn [fst snd].
  repeat split; destruct E; discriminate.
Qed.

(** C10.  Each of the six typed wrappers returns exactly what the check
    of its kind returns on the same pair: the handle it returns embeds
    the check's handle and its error is the check's error; and on
    (nil, nil) all six return the one sentinel [ErrSDKReturnedNilImpl]. *)
Theorem typed_wrappers_agree_with_their_check
  (i : Sync) (a : Async) (e : error) :
  ((Int64Counter_syncInstrument (fst (wrapInt64CounterInstrument i e))
      = fst (checkNewSync i e) /\
    snd (wrapInt64CounterInstrument i e) = snd (checkNewSync i e)) /\
   (Float64Counter_syncInstrument (fst (wrapFloat64CounterInstrument i e))
      = fst (checkNewSync i e) /\
    snd (wrapFloat64CounterInstrument i e) = snd (checkNewSync i e)) /\
   (Int64Measure_syncInstrument (fst (wrapInt64MeasureInstrument i e))
      = fst (checkNewSync i e) /\
    snd (wrapInt64MeasureInstrument i e) = snd (checkNewSync i e)) /\
   (Float64Measure_syncInstrument (fst (wrapFloat64MeasureInstrument i e))
      = fst (checkNewSync i e) /\
    snd (wrapFloat64MeasureInstrument i e) = snd (checkNewSync i e)) /\
   (Int64Observer_asyncInstrument (fst (wrapInt64ObserverInstrument a e))
      = fst (checkNewAsync a e) /\
    snd (wrapInt64ObserverInstrument a e) = snd (checkNewAsync a e)) /\
   (Float64Observer_asyncInstrument
      (fst (wrapFloat64ObserverInstrument a e))
      = fst (checkNewAsync a e) /\
    snd (wrapFloat64ObserverInstrument a e) = snd (checkNewAsync a e))) /\
  (snd (wrapInt64CounterInstrument (None : Sync) None)
     = ErrSDKReturnedNilImpl /\
   snd (wrapFloat64CounterInstrument (None : Sync) None)
     = ErrSDKReturnedNilImpl /\
   snd (wrapInt64MeasureInstrument (None : Sync) None)
     = ErrSDKReturnedNilImpl /\
   snd (wrapFloat64MeasureInstrument (None : Sync) None)
     = ErrSDKReturnedNilImpl /\
   snd (wrapInt64ObserverInstrument (None : Async) None)
     = ErrSDKReturnedNilImpl /\
   snd (wrapFloat64ObserverInstrument (None : Async) None)
     = ErrSDKReturnedNilImpl).
Proof.
  autorewrite with wrap; cbn [fst snd].
  repeat split.
Qed.

End Construction.

Section Measurements.

Variables World context_Context kv_KeyValue : Type.

Local Abbreviation Handle :=
  (syncInstrument World context_Context kv_KeyValue).
Local Abbreviation Mach := (Machine World context_Context kv_KeyValue).

(** C4.  A measurement built from an integer reads back as that integer,
    tagged as an integer; a measurement built from a float reads back as
    that float, tagged as a float. *)
Theorem measurement_number_round_trip
  (s : Handle) (V : int64) (F : float64) :
  (Measurement_Number (syncInstrument_int64Measurement s V)
     = NewInt64Number V /\
   Number_AsInt64 (Measurement_Number (syncInstrument_int64Measurement s V))
     = Some V /\
   Number_Kind (Measurement_Number (syncInstrument_int64Measurement s V))
     = Int64NumberKind) /\
  (Measurement_Number (syncInstrument_float64Measurement s F)
     = NewFloat64Number F /\
   Number_AsFloat64
     (Measurement_Number (syncInstrument_float64Measurement s F))
     = Some F /\
   Number_Kind (Measurement_Number (syncInstrument_float64Measurement s F))
     = Float64NumberKind).
Proof.
  unfold syncInstrument_int64Measurement, syncInstrument_float64Measurement,
    newMeasurement, Measurement_Number.
  cbn [Measurement_number].
  repeat split.
Qed.

(** C5.  Calling either measurement constructor on any handle, be its
    instrument an object, a nil pointer or the nil interface, returns the
    measurement of the given value on the handle's instrument and leaves
    the machine as it was: the SDK's state is untouched, no [RecordOne]
    and no [Bind] is logged, and there is no panic and no error. *)
Theorem measurement_construction_leaves_machine_alone
  (s : Handle) (V : int64) (F : float64) (m : Mach) :
  syncInstrument_int64Measurement_call s V m
  = Returned
      {| Measurement_number := NewInt64Number V;
         Measurement_instrument := syncInstrument_instrument s |} m /\
  syncInstrument_float64Measurement_call s F m
  = Returned
      {| Measurement_number := NewFloat64Number F;
         Measurement_instrument := syncInstrument_instrument s |} m.
Proof.
  unfold syncInstrument_int64Measurement_call,
    syncInstrument_float64Measurement_call, ret.
  unfold syncInstrument_int64Measurement, syncInstrument_float64Measurement,
    newMeasurement.
  split; reflexivity.
Qed.

(** C9.  A measurement refers to the instrument of the handle that built
    it. *)
Theorem measurement_keeps_instrument_of_its_handle
  (s : Handle) (V : int64) (F : float64) :
  Measurement_SyncImpl (syncInstrument_int64Measurement s V)
    = syncInstrument_SyncImpl s /\
  Measurement_SyncImpl (syncInstrument_float64Measurement s F)
    = syncInstrument_SyncImpl s.
Proof.
  destruct s as [i].
  split; reflexivity.
Qed.

End Measurements.

Section Recording.

Variables World context_Context kv_KeyValue : Type.

Local Abbreviation SyncObj := (SyncImplObj World context_Context kv_KeyValue).
Local Abbreviation BoundObj := (BoundSyncImplObj World context_Context).
Local Abbreviation Sync := (SyncImpl World context_Context kv_KeyValue).
Local Abbreviation Async := (AsyncImpl World context_Context kv_KeyValue).
Local Abbreviation Mach := (Machine World context_Context kv_KeyValue).
Local Abbreviation Log := (list (Call World context_Context kv_KeyValue)).

(** *** One step of each call into the SDK *)

Lemma directRecord_step (i : SyncObj) (ctx : context_Context)
  (N : Number) (L : list kv_KeyValue) (m : Mach) :
  syncInstrument_directRecord {| syncInstrument_instrument := Some (object i) |}
    ctx N L m
  = Returned tt
      {| world := SyncImpl_RecordOne i ctx N L (world m);
         calls := calls m ++ [Call_RecordOne i ctx N L] |}.
Proof. reflexivity. Qed.

Lemma bound_directRecord_step (b : BoundObj) (ctx : context_Context)
  (N : Number) (m : Mach) :
  syncBoundInstrument_directRecord
    {| syncBoundInstrument_boundInstrument := Some (object b) |} ctx N m
  = Returned tt
      {| world := BoundSyncImpl_RecordOne b ctx N (world m);
         calls := calls m ++ [Call_BoundRecordOne b ctx N] |}.
Proof. reflexivity. Qed.

Lemma Unbind_step (b : BoundObj) (m : Mach) :
  syncBoundInstrument_Unbind
    {| syncBoundInstrument_boundInstrument := Some (object b) |} m
  = Returned tt
      {| world := BoundSyncImpl_Unbind b (world m);
         calls := calls m ++ [Call_Unbind b] |}.
Proof. reflexivity. Qed.

Lemma bind_step (i : SyncObj) (L : list kv_KeyValue) (m : Mach) :
  syncInstrument_bind {| syncInstrument_instrument := Some (object i) |} L m
  = Returned
      (newSyncBoundInstrument (fst (SyncImpl_Bind i L (world m))))
      {| world := snd (SyncImpl_Bind i L (world m));
         calls := calls m ++
                  [Call_Bind i L (fst (SyncImpl_Bind i L (world m)))] |}.
Proof.
  unfold syncInstrument_bind, seq, invoke_Bind, ret.
  cbn [syncInstrument_instrument].
  destruct (SyncImpl_Bind i L (world m)) as [b w]; reflexivity.
Qed.

(** A handle built around a nil instrument does panic: the check is what
    keeps the handles safe. *)
Lemma nil_handle_panics (ctx : context_Context) (N : Number)
  (L : list kv_KeyValue) (m : Mach) :
  syncInstrument_directRecord {| syncInstrument_instrument := None |}
    ctx N L m = Panicked m /\
  returns (syncInstrument_bind {| syncInstrument_instrument := None |} L m)
    = false.
Proof. split; reflexivity. Qed.

(** So does a bound handle around a nil bound instrument: the facade
    wraps what [Bind] returns as it is, and leaves it to the SDK to
    return a usable bound instrument. *)
Lemma nil_bound_handle_panics (i : SyncObj) (L : list kv_KeyValue)
  (ctx : context_Context) (V : Number) (m : Mach) :
  fst (SyncImpl_Bind i L (world m)) = None ->
  returns
    (record_through_bind {| syncInstrument_instrument := Some (object i) |}
       L ctx V m) = false.
Proof.
  intros Hnil. unfold record_through_bind, seq.
  rewrite bind_step, Hnil. reflexivity.
Qed.

Lemma checkNewSync_instrument (i : Sync) (e : error) :
  syncInstrument_instrument (fst (checkNewSync i e))
  = Some match i with Some d => d | None => object NoopSync end.
Proof. destruct i; reflexivity. Qed.

Lemma call_returns_on_object (I : SyncObj)
  (f : syncMethod context_Context kv_KeyValue) (m : Mach) :
  returns
    (syncInstrument_call {| syncInstrument_instrument := Some (object I) |} f m)
  = true.
Proof.
  destruct f as [ | L | F | V | ctx N L ]; try reflexivity.
  unfold syncInstrument_call, seq.
  rewrite bind_step. reflexivity.
Qed.

(** C3, amended.  Whatever pair the SDK hands over, nil and nil included,
    the handle a check returns holds a non-nil interface and its
    measurements refer to a non-nil instrument.  When the implementation
    handed over is the nil interface, for which the no-op is substituted,
    or an object, every method of the synchronous handle returns instead
    of panicking; on the handle built from (nil, nil), [directRecord]
    returns and leaves the SDK's state as it was.  A non-nil interface
    holding a nil pointer is not covered: the check wraps it as it is. *)
Theorem checked_handle_is_safe_to_use
  (i : Sync) (a : Async) (I : SyncObj) (e : error)
  (f : syncMethod context_Context kv_KeyValue)
  (ctx : context_Context) (N : Number) (L : list kv_KeyValue)
  (V : int64) (F : float64) (m : Mach) :
  (syncInstrument_SyncImpl (fst (checkNewSync i e)) <> None /\
   asyncInstrument_AsyncImpl (fst (checkNewAsync a e)) <> None) /\
  (Measurement_SyncImpl
     (syncInstrument_int64Measurement (fst (checkNewSync i e)) V) <> None /\
   Measurement_SyncImpl
     (syncInstrument_float64Measurement (fst (checkNewSync i e)) F)
     <> None) /\
  (returns
     (syncInstrument_call (fst (checkNewSync (None : Sync) e)) f m) = true /\
   returns
     (syncInstrument_call (fst (checkNewSync (Some (object I)) e)) f m)
   = true) /\
  (syncInstrument_directRecord (fst (checkNewSync (None : Sync) None))
     ctx N L m
   = Returned tt
       {| world := world m;
          calls := calls m ++ [Call_RecordOne NoopSync ctx N L] |}).
Proof.
  split; [ | split; [ | split ] ].
  - split; [ destruct i | destruct a ]; discriminate.
  - split; destruct i; discriminate.
  - split.
    + rewrite checkNewSync_absent. apply call_returns_on_object.
    + rewrite checkNewSync_present. apply call_returns_on_object.
  - reflexivity.
Qed.

(** C6.  [directRecord] on an unbound handle is one [RecordOne] on the
    wrapped instrument with the same context, number and labels, and
    nothing else; [directRecord] on a bound handle is one [RecordOne] on
    the wrapped bound instrument with the same context and number. *)
Theorem directRecord_is_one_RecordOne
  (i : SyncObj) (b : BoundObj) (ctx : context_Context) (N : Number)
  (L : list kv_KeyValue) (m : Mach) :
  syncInstrument_directRecord {| syncInstrument_instrument := Some (object i) |}
    ctx N L m
  = Returned tt
      {| world := SyncImpl_RecordOne i ctx N L (world m);
         calls := calls m ++ [Call_RecordOne i ctx N L] |} /\
  syncBoundInstrument_directRecord
    {| syncBoundInstrument_boundInstrument := Some (object b) |} ctx N m
  = Returned tt
      {| world := BoundSyncImpl_RecordOne b ctx N (world m);
         calls := calls m ++
[Call_BoundRecordOne b ctx N] |}.
Proof.
  split; [ apply directRecord_step | apply bound_directRecord_step ].
Qed.

(** *** Reading a log *)

Lemma count_app (p : Call World context_Context kv_KeyValue -> bool)
  (l1 l2 : Log) :
  count p (l1 ++ l2) = count p l1 + count p l2.
Proof.
  unfold count. rewrite filter_app, length_app. reflexivity.
Qed.

Lemma count_nil (p : Call World context_Context kv_KeyValue -> bool) :
  count p [] = 0.
Proof. reflexivity. Qed.

Lemma count_cons (p : Call World context_Context kv_KeyValue -> bool)
  (c : Call World context_Context kv_KeyValue) (l : Log) :
  count p (c :: l) = Nat.b2n (p c) + count p l.
Proof.
  unfold count. cbn [filter]. destruct (p c); reflexivity.
Qed.

(** A log holding one unbound [RecordOne] delivers that recording only. *)
Lemma delivers_one_RecordOne (i i' : SyncObj) (ctx c : context_Context)
  (N n : Number) (L l : list kv_KeyValue) :
  delivers [Call_RecordOne i ctx N L] i' c n l <->
  (i' = i /\ c = ctx /\ n = N /\ l = L).
Proof.
  split.
  - intros H. inversion H as [ ? ? ? ? Hin | ? ? ? ? b pre mid post Hlog ];
      subst.
    + destruct Hin as [Heq | []]. injection Heq as -> -> -> ->. auto.
    + apply (f_equal (@List.length _)) in Hlog.
      rewrite length_app in Hlog; cbn [List.length] in Hlog.
      rewrite length_app in Hlog; cbn [List.length] in Hlog. lia.
  - intros (-> & -> & -> & ->). apply delivers_unbound. left. reflexivity.
Qed.

(** A log holding a [Bind] and then a [RecordOne] on the bound instrument
    it returned delivers one recording, under the labels of the [Bind]. *)
Lemma delivers_Bind_then_RecordOne (i i' : SyncObj) (b : BoundObj)
  (ctx c : context_Context) (N n : Number) (L l : list kv_KeyValue) :
  delivers [Call_Bind i L (Some (object b)); Call_BoundRecordOne b ctx N] i' c n l <->
  (i' = i /\ c = ctx /\ n = N /\ l = L).
Proof.
  split.
  - intros H. inversion H as [ ? ? ? ? Hin | ? ? ? ? b' pre mid post Hlog ];
      subst.
    + destruct Hin as [Heq | [Heq | []]]; discriminate Heq.
    + destruct pre as [ | x pre ]; cbn [app] in Hlog.
      * injection Hlog as Hi Hl Hb Hrest. subst i' l b'.
        destruct mid as [ | y mid ]; cbn [app] in Hrest.
        -- injection Hrest as Hc Hn _. subst. auto.
        -- injection Hrest as _ Hnil.
           destruct mid; discriminate Hnil.
      * injection Hlog as _ Hrest.
        destruct pre as [ | y pre ]; cbn [app] in Hrest.
        -- discriminate Hrest.
        -- injection Hrest as _ Hnil.
           destruct pre; discriminate Hnil.
  - intros (-> & -> & -> & ->).
    apply delivers_bound with (b := b) (before := []) (between := [])
                              (after := []).
    reflexivity.
Qed.

Lemma record_through_bind_run (i : SyncObj) (L : list kv_KeyValue)
  (ctx : context_Context) (V : Number) (m : Mach) (b : BoundObj)
  (w1 : World) :
  SyncImpl_Bind i L (world m) = (Some (object b), w1) ->
  record_through_bind {| syncInstrument_instrument := Some (object i) |} L ctx V m
  = Returned tt
      {| world := BoundSyncImpl_RecordOne b ctx V w1;
         calls := calls m ++
                  [Call_Bind i L (Some (object b)); Call_BoundRecordOne b ctx V] |}.
Proof.
  intros Hbind. unfold record_through_bind, seq.
  rewrite bind_step, Hbind. cbn [fst snd newSyncBoundInstrument].
  rewrite bound_directRecord_step. cbn [world calls].
  rewrite <- app_assoc. reflexivity.
Qed.

Lemma bind_record_unbind_run (i : SyncObj) (L : list kv_KeyValue)
  (ctx : context_Context) (V : Number) (m : Mach) (b : BoundObj)
  (w1 : World) :
  SyncImpl_Bind i L (world m) = (Some (object b), w1) ->
  bind_record_unbind {| syncInstrument_instrument := Some (object i) |} L ctx V m
  = Returned tt
      {| world :=
           BoundSyncImpl_Unbind b (BoundSyncImpl_RecordOne b ctx V w1);
         calls := calls m ++
                  [Call_Bind i L (Some (object b)); Call_BoundRecordOne b ctx V;
                   Call_Unbind b] |}.
Proof.
  intros Hbind. unfold bind_record_unbind, seq.
  rewrite bind_step, Hbind. cbn [fst snd newSyncBoundInstrument].
  rewrite bound_directRecord_step, Unbind_step. cbn [world calls].
  rewrite <- !app_assoc. reflexivity.
Qed.

(** C7, amended.  When the SDK answers the [Bind] with a bound instrument
    on which calls can run, this holds: starting from the same SDK state,
    binding with [L] and recording
    [V] through the bound handle, and recording [V] with [L] through the
    unbound handle, both return and hand the SDK the same recording, [V]
    under [L] with [ctx] on the wrapped instrument, and no other: the
    first as a [Bind] carrying [L] and a bound [RecordOne] carrying [ctx]
    and [V], the second as one [RecordOne] carrying all three. *)
Theorem record_through_bind_delivers_the_same_recording
  (i : SyncObj) (L : list kv_KeyValue) (ctx : context_Context)
  (V : Number) (w w1 : World) (b : BoundObj) :
  SyncImpl_Bind i L w = (Some (object b), w1) ->
  (record_through_bind {| syncInstrument_instrument := Some (object i) |} L ctx V
     (boot w)
   = Returned tt
       {| world := BoundSyncImpl_RecordOne b ctx V w1;
          calls := [Call_Bind i L (Some (object b)); Call_BoundRecordOne b ctx V] |}
   /\
   syncInstrument_directRecord {| syncInstrument_instrument := Some (object i) |}
     ctx V L (boot w)
   = Returned tt
       {| world := SyncImpl_RecordOne i ctx V L w;
          calls := [Call_RecordOne i ctx V L] |}) /\
  (forall i' c n l,
     delivers
       (calls (machine_of
          (record_through_bind {| syncInstrument_instrument := Some (object i) |}
             L ctx V (boot w)))) i' c n l <->
     delivers
       (calls (machine_of
          (syncInstrument_directRecord
             {| syncInstrument_instrument := Some (object i) |} ctx V L (boot w))))
       i' c n l) /\
  (forall i' c n l,
     delivers
       (calls (machine_of
          (record_through_bind {| syncInstrument_instrument := Some (object i) |}
             L ctx V (boot w)))) i' c n l <->
     (i' = i /\ c = ctx /\ n = V /\ l = L)).
Proof.
  intros Hbind.
  rewrite record_through_bind_run with (b := b) (w1 := w1)
    by exact Hbind.
  rewrite directRecord_step.
  cbn [boot world calls app machine_of].
  split; [ split; reflexivity | ].
  split; intros i' c n l.
  - rewrite delivers_Bind_then_RecordOne, delivers_one_RecordOne.
    reflexivity.
  - apply delivers_Bind_then_RecordOne.
Qed.

(** C8.  When the SDK answers the [Bind] with a bound instrument, the run
    bind, record [V] once, unbind adds to the log one [Bind] with the
    labels, then one [RecordOne] on the bound instrument carrying [V],
    then one [Unbind] on it, in that order and nothing else.  Any
    [Unbind] on a bound handle is exactly one [Unbind] on its bound
    instrument. *)
Theorem bind_record_unbind_issues_three_calls_in_order
  (i : SyncObj) (L : list kv_KeyValue) (ctx : context_Context)
  (V : Number) (m m' : Mach) (b b' : BoundObj) (w1 : World) :
  SyncImpl_Bind i L (world m) = (Some (object b), w1) ->
  (bind_record_unbind {| syncInstrument_instrument := Some (object i) |} L ctx V m
   = Returned tt
       {| world :=
            BoundSyncImpl_Unbind b (BoundSyncImpl_RecordOne b ctx V w1);
          calls := calls m ++
                   [Call_Bind i L (Some (object b)); Call_BoundRecordOne b ctx V;
                    Call_Unbind b] |} /\
   count (@is_Bind _ _ _)
     (calls (machine_of
        (bind_record_unbind {| syncInstrument_instrument := Some (object i) |}
           L ctx V m)))
   = S (count (@is_Bind _ _ _) (calls m)) /\
   count (@is_RecordOne _ _ _)
     (calls (machine_of
        (bind_record_unbind {| syncInstrument_instrument := Some (object i) |}
           L ctx V m)))
   = S (count (@is_RecordOne _ _ _) (calls m)) /\
   count (@is_Unbind _ _ _)
     (calls (machine_of
        (bind_record_unbind {| syncInstrument_instrument := Some (object i) |}
           L ctx V m)))
   = S (count (@is_Unbind _ _ _) (calls m))) /\
  (syncBoundInstrument_Unbind
     {| syncBoundInstrument_boundInstrument := Some (object b') |} m'
   = Returned tt
       {| world := BoundSyncImpl_Unbind b' (world m');
          calls := calls m' ++ [Call_Unbind b'] |} /\
   count (@is_Unbind _ _ _)
     (calls (machine_of
        (syncBoundInstrument_Unbind
           {| syncBoundInstrument_boundInstrument := Some (object b') |} m')))
   = S (count (@is_Unbind _ _ _) (calls m'))).
Proof.
  intros Hbind.
  rewrite bind_record_unbind_run with (b := b) (w1 := w1)
    by exact Hbind.
  rewrite Unbind_step.
  cbn [machine_of calls].
  rewrite !count_app.
  rewrite !count_cons, !count_nil.
  cbn [is_Bind is_RecordOne is_Unbind Nat.b2n].
  repeat split; lia.
Qed.

End Recording.

(** * The facade on the recording SDK *)

Lemma record_through_bind_on_recording_sdk :
  SyncImpl_Bind Mock.counter Mock.kv []
    = (Some (object (Mock.bound Mock.kv)), [Mock.Bound Mock.kv]) /\
  (record_through_bind {| syncInstrument_instrument := Some (object Mock.counter) |}
     Mock.kv 0 (NewInt64Number 5%Z) (boot [])
   = Returned tt
       {| world := [Mock.Bound Mock.kv;
                    Mock.Recorded 0 (Int64Number 5%Z) Mock.kv];
          calls := [Call_Bind Mock.counter Mock.kv (Some (object (Mock.bound Mock.kv)));
                    Call_BoundRecordOne (Mock.bound Mock.kv) 0
                      (Int64Number 5%Z)] |} /\
   syncInstrument_directRecord
     {| syncInstrument_instrument := Some (object Mock.counter) |}
     0 (NewInt64Number 5%Z) Mock.kv (boot [])
   = Returned tt
       {| world := [Mock.Recorded 0 (Int64Number 5%Z) Mock.kv];
          calls := [Call_RecordOne Mock.counter 0 (Int64Number 5%Z)
                      Mock.kv] |}).
Proof.
  split; [ reflexivity | ].
  exact (proj1 (record_through_bind_delivers_the_same_recording
                  Mock.counter Mock.kv 0 (NewInt64Number 5%Z) []
                  eq_refl)).
Defined.

Lemma bind_record_unbind_on_recording_sdk :
  SyncImpl_Bind Mock.counter Mock.kv []
    = (Some (object (Mock.bound Mock.kv)), [Mock.Bound Mock.kv]) /\
  bind_record_unbind {| syncInstrument_instrument := Some (object Mock.counter) |}
    Mock.kv 0 (NewInt64Number 5%Z) (boot [])
  = Returned tt
      {| world := [Mock.Bound Mock.kv;
                   Mock.Recorded 0 (Int64Number 5%Z) Mock.kv;
                   Mock.Released Mock.kv];
         calls := [Call_Bind Mock.counter Mock.kv (Some (object (Mock.bound Mock.kv)));
                   Call_BoundRecordOne (Mock.bound Mock.kv) 0 (Int64Number 5%Z);
                   Call_Unbind (Mock.bound Mock.kv)] |}.
Proof.
  split; [ reflexivity | ].
  exact (proj1 (proj1 (bind_record_unbind_issues_three_calls_in_order
                         Mock.counter Mock.kv 0 (NewInt64Number 5%Z)
                         (boot []) (boot []) (Mock.bound Mock.kv)
                         eq_refl))).
Defined.

(** ** Runs on concrete values *)

(** The SDK reports a failure and still hands over an instrument: both
    come back. *)
Example wrap_counter_with_instrument_and_failure :
  wrapInt64CounterInstrument (Some (object Mock.counter)) Mock.failure
  = ({| Int64Counter_syncInstrument :=
          {| syncInstrument_instrument := Some (object Mock.counter) |} |},
     Mock.failure).
Proof. reflexivity. Qed.

Example wrap_observer_with_instrument :
  wrapInt64ObserverInstrument (Some (object Mock.observer)) None
  = ({| Int64Observer_asyncInstrument :=
          {| asyncInstrument_instrument := Some (object Mock.observer) |} |},
     None).
Proof. reflexivity. Qed.

(** The SDK hands over nothing at all. *)
Example wrap_observer_without_instrument :
  wrapFloat64ObserverInstrument
    (None : AsyncImpl Mock.World nat (string * string)) None
  = ({| Float64Observer_asyncInstrument :=
          {| asyncInstrument_instrument := Some (object NoopAsync) |} |},
     ErrSDKReturnedNilImpl).
Proof. reflexivity. Qed.

(** The SDK hands over no instrument, with its own failure. *)
Example wrap_measure_without_instrument_with_failure :
  wrapFloat64MeasureInstrument
    (None : SyncImpl Mock.World nat (string * string)) Mock.failure
  = ({| Float64Measure_syncInstrument :=
          {| syncInstrument_instrument := Some (object NoopSync) |} |},
     Mock.failure).
Proof. reflexivity. Qed.

(** Recording through the substituted no-op leaves the SDK as it was. *)
Example record_on_substituted_noop :
  syncInstrument_directRecord
    (fst (checkNewSync (None : SyncImpl Mock.World nat (string * string))
            None))
    0 (NewInt64Number 5%Z) Mock.kv
    {| world := [Mock.Bound Mock.kv]; calls := [] |}
  = Returned tt
      {| world := [Mock.Bound Mock.kv];
         calls := [Call_RecordOne NoopSync 0 (Int64Number 5%Z) Mock.kv] |}.
Proof. reflexivity. Qed.

Example measurement_of_five :
  Number_AsInt64
    (Measurement_Number
       (syncInstrument_int64Measurement
          {| syncInstrument_instrument := Some (object Mock.counter) |} 5%Z))
  = Some 5%Z.
Proof. reflexivity. Qed.

Example measurement_of_a_half :
  Measurement_Number
    (syncInstrument_float64Measurement
       {| syncInstrument_instrument := Some (object Mock.counter) |} 0.5%float)
  = Float64Number 0.5%float.
Proof. reflexivity. Qed.

(** An SDK whose [Bind] returns nil: binding returns, recording through
    the bound handle panics. *)
Example record_through_nil_bind_panics :
  returns
    (record_through_bind
       {| syncInstrument_instrument :=
            Some (object
                    {| SyncImpl_Bind := fun _ (w : Mock.World) => (None, w);
                       SyncImpl_RecordOne := fun (_ : nat) _
                         (_ : list (string * string)) w => w |}) |}
       Mock.kv 0 (NewInt64Number 5%Z) (boot []))
  = false.
Proof. reflexivity. Qed.

(** * Further properties of the checks *)

Section Checks.

Variables World context_Context kv_KeyValue : Type.

Local Abbreviation Sync := (SyncImpl World context_Context kv_KeyValue).
Local Abbreviation Async := (AsyncImpl World context_Context kv_KeyValue).

(** Checking what a check returned changes nothing: the handle's
    instrument and the error pass through a second check as they are. *)
Theorem check_is_idempotent (i : Sync) (a : Async) (e : error) :
  checkNewSync (syncInstrument_SyncImpl (fst (checkNewSync i e)))
    (snd (checkNewSync i e)) = checkNewSync i e /\
  checkNewAsync (asyncInstrument_AsyncImpl (fst (checkNewAsync a e)))
    (snd (checkNewAsync a e)) = checkNewAsync a e.
Proof.
  split.
  - destruct i as [obj | ]; [ reflexivity | ].
    destruct e as [err | ]; reflexivity.
  - destruct a as [obj | ]; [ reflexivity | ].
    destruct e as [err | ]; reflexivity.
Qed.

(** A check returns a nil error exactly when it was given an
    implementation and a nil error: a caller that sees no error holds a
    handle on the SDK's own instrument. *)
Theorem check_error_nil_iff (i : Sync) (a : Async) (e : error) :
  (snd (checkNewSync i e) = None <-> i <> None /\ e = None) /\
  (snd (checkNewAsync a e) = None <-> a <> None /\ e = None) /\
  (snd (wrapInt64CounterInstrument i e) = None <-> i <> None /\ e = None) /\
  (snd (wrapFloat64ObserverInstrument a e) = None <->
   a <> None /\ e = None).
Proof.
  rewrite wrapInt64CounterInstrument_unfold,
    wrapFloat64ObserverInstrument_unfold; cbn [snd].
  assert (Hs : snd (checkNewSync i e) = None <-> i <> None /\ e = None).
  { destruct i as [obj | ]; destruct e as [err | ]; cbn; split;
      try discriminate; try (intros [H1 H2]; congruence);
      intros _; split; congruence. }
  assert (Ha : snd (checkNewAsync a e) = None <-> a <> None /\ e = None).
  { destruct a as [obj | ]; destruct e as [err | ]; cbn; split;
      try discriminate; try (intros [H1 H2]; congruence);
      intros _; split; congruence. }
  tauto.
Qed.

(** A measurement made through a typed handle refers to the SDK's
    instrument when one was given and to the no-op otherwise, never to
    nil: it is safe to hand to a batch whatever the construction returned. *)
Theorem measurement_of_wrapped_handle (i : Sync) (e : error)
  (V : int64) (F : float64) :
  Measurement_SyncImpl
    (syncInstrument_int64Measurement
       (Int64Counter_syncInstrument (fst (wrapInt64CounterInstrument i e))) V)
  = Some match i with Some d => d | None => object NoopSync end /\
  Measurement_SyncImpl
    (syncInstrument_float64Measurement
       (Float64Measure_syncInstrument
          (fst (wrapFloat64MeasureInstrument i e))) F)
  = Some match i with Some d => d | None => object NoopSync end.
Proof.
  rewrite wrapInt64CounterInstrument_unfold,
    wrapFloat64MeasureInstrument_unfold.
  cbn [fst Int64Counter_syncInstrument Float64Measure_syncInstrument].
  unfold syncInstrument_int64Measurement, syncInstrument_float64Measurement,
    newMeasurement, Measurement_SyncImpl.
  cbn [Measurement_instrument].
  rewrite checkNewSync_instrument. split; reflexivity.
Qed.

End Checks.

(** * Further properties of the calls into the SDK *)

Section Compositions.

Variables World context_Context kv_KeyValue : Type.

Local Abbreviation SyncObj := (SyncImplObj World context_Context kv_KeyValue).
Local Abbreviation BoundObj := (BoundSyncImplObj World context_Context).
Local Abbreviation Handle :=
  (syncInstrument World context_Context kv_KeyValue).
Local Abbreviation Mach := (Machine World context_Context kv_KeyValue).
Local Abbreviation Log := (list (Call World context_Context kv_KeyValue)).

Lemma machine_eta (m : Mach) :
  {| world := world m; calls := calls m ++ [] |} = m.
Proof. destruct m as [w log]. cbn. rewrite app_nil_r. reflexivity. Qed.

(** Each method of the unbound handle adds at most one call to the log and
    keeps what was logged before; on a handle around a nil instrument it
    leaves the machine as it found it, so a panic there happens before
    anything reaches the SDK. *)
Theorem handle_method_makes_at_most_one_call
  (s : Handle) (f : syncMethod context_Context kv_KeyValue) (m : Mach) :
  (exists extra : Log,
     calls (machine_of (syncInstrument_call s f m)) = calls m ++ extra /\
     List.length extra <= 1) /\
  machine_of
    (syncInstrument_call
       ({| syncInstrument_instrument := None |} : Handle) f m) = m.
Proof.
  split.
  - destruct s as [[[i | ] | ]];
      destruct f as [ | L | F | V | ctx N L ];
      try (exists []; cbn; rewrite app_nil_r; split; [ reflexivity | lia ]).
    + unfold syncInstrument_call, seq. rewrite bind_step.
      eexists; split; [ reflexivity | cbn; lia ].
    + unfold syncInstrument_call, seq. rewrite directRecord_step.
      eexists; split; [ reflexivity | cbn; lia ].
  - destruct f; reflexivity.
Qed.

Lemma record_each_on_object (b : BoundObj) (ctx : context_Context)
  (numbers : list Number) (m : Mach) :
  record_each {| syncBoundInstrument_boundInstrument := Some (object b) |}
    ctx numbers m
  = Returned tt
      {| world :=
           fold_left (fun w n => BoundSyncImpl_RecordOne b ctx n w)
             numbers (world m);
         calls := calls m ++ map (Call_BoundRecordOne b ctx) numbers |}.
Proof.
  revert m. induction numbers as [ | n rest IH ]; intros m.
  - cbn [record_each fold_left map]. unfold ret.
    rewrite machine_eta. reflexivity.
  - cbn [record_each fold_left map]. unfold seq.
    rewrite bound_directRecord_step, IH. cbn [world calls].
    rewrite <- app_assoc. reflexivity.
Qed.

(** Recording a list of numbers through a bound handle is one [RecordOne]
    on the bound instrument per number, in the order of the list, each
    with the same context, and nothing else; the SDK's state is the fold
    of its method over the list.  Around a nil bound instrument the loop
    panics on its first recording, before anything reaches the SDK, and
    only then: with no number to record it returns. *)
Theorem record_each_is_one_RecordOne_per_number
  (b : BoundObj) (ctx : context_Context) (n : Number)
  (numbers : list Number) (m : Mach) :
  record_each {| syncBoundInstrument_boundInstrument := Some (object b) |}
    ctx numbers m
  = Returned tt
      {| world :=
           fold_left (fun w n => BoundSyncImpl_RecordOne b ctx n w)
             numbers (world m);
         calls := calls m ++ map (Call_BoundRecordOne b ctx) numbers |} /\
  record_each {| syncBoundInstrument_boundInstrument := None |} ctx [] m
  = Returned tt m /\
  record_each {| syncBoundInstrument_boundInstrument := None |}
    ctx (n :: numbers) m
  = Panicked m.
Proof.
  split; [ apply record_each_on_object | split; reflexivity ].
Qed.

(** The facade keeps no table of bound instruments: binding a handle twice
    calls the SDK's [Bind] twice, the second time on the state the first
    left, and each bound handle holds what its own call returned, be the
    labels the same or not. *)
Theorem bind_twice_calls_Bind_twice
  (i : SyncObj) (L1 L2 : list kv_KeyValue) (m : Mach) :
  bind_twice {| syncInstrument_instrument := Some (object i) |} L1 L2 m
  = let r1 := SyncImpl_Bind i L1 (world m) in
    let r2 := SyncImpl_Bind i L2 (snd r1) in
    Returned
      ({| syncBoundInstrument_boundInstrument := fst r1 |},
       {| syncBoundInstrument_boundInstrument := fst r2 |})
      {| world := snd r2;
         calls := calls m ++
                  [Call_Bind i L1 (fst r1); Call_Bind i L2 (fst r2)] |}.
Proof.
  unfold bind_twice, seq. rewrite !bind_step. cbn [world calls].
  unfold ret. cbv zeta. rewrite <- app_assoc. reflexivity.
Qed.

(** Nothing in a bound handle remembers that it was unbound: a recording
    after [Unbind] still reaches the bound instrument, and a second
    [Unbind] calls the SDK's [Unbind] a second time. *)
Theorem no_guard_after_Unbind
  (b : BoundObj) (ctx : context_Context) (V : Number) (m : Mach) :
  unbind_then_record {| syncBoundInstrument_boundInstrument := Some (object b) |}
    ctx V m
  = Returned tt
      {| world :=
           BoundSyncImpl_RecordOne b ctx V
             (BoundSyncImpl_Unbind b (world m));
         calls := calls m ++
                  [Call_Unbind b; Call_BoundRecordOne b ctx V] |} /\
  unbind_twice {| syncBoundInstrument_boundInstrument := Some (object b) |} m
  = Returned tt
      {| world := BoundSyncImpl_Unbind b (BoundSyncImpl_Unbind b (world m));
         calls := calls m ++ [Call_Unbind b; Call_Unbind b] |}.
Proof.
  unfold unbind_then_record, unbind_twice, seq.
  rewrite !Unbind_step, bound_directRecord_step. cbn [world calls].
  rewrite <- !app_assoc. split; reflexivity.
Qed.

(** When the SDK answers [Bind] with a nil bound instrument, [bind]
    returns a handle around nil, after the [Bind] reached the SDK and with
    its effect in place; [directRecord] on that handle panics there, with
    nothing more logged.  So bind then record panics, and bind, record,
    unbind panics at the same point, before any [Unbind]; [directRecord]
    on the unbound handle returns. *)
Theorem nil_Bind_result_panics_after_the_Bind
  (i : SyncObj) (L : list kv_KeyValue) (ctx : context_Context)
  (V : Number) (m : Mach) (w1 : World) :
  SyncImpl_Bind i L (world m) = (None, w1) ->
  syncInstrument_bind {| syncInstrument_instrument := Some (object i) |} L m
  = Returned {| syncBoundInstrument_boundInstrument := None |}
      {| world := w1; calls := calls m ++ [Call_Bind i L None] |} /\
  syncBoundInstrument_directRecord
    {| syncBoundInstrument_boundInstrument := None |} ctx V
    {| world := w1; calls := calls m ++ [Call_Bind i L None] |}
  = Panicked {| world := w1; calls := calls m ++ [Call_Bind i L None] |} /\
  record_through_bind {| syncInstrument_instrument := Some (object i) |}
    L ctx V m
  = Panicked {| world := w1; calls := calls m ++ [Call_Bind i L None] |} /\
  bind_record_unbind {| syncInstrument_instrument := Some (object i) |}
    L ctx V m
  = Panicked {| world := w1; calls := calls m ++ [Call_Bind i L None] |} /\
  returns
    (syncInstrument_directRecord
       {| syncInstrument_instrument := Some (object i) |} ctx V L m) = true.
Proof.
  intros Hbind.
  unfold record_through_bind, bind_record_unbind, seq.
  rewrite bind_step, Hbind. cbn [fst snd newSyncBoundInstrument].
  repeat split.
Qed.

(** A log delivers a recording only through a [RecordOne] it holds. *)
Lemma delivers_has_RecordOne (log : Log) (i : SyncObj)
  (ctx : context_Context) (N : Number) (L : list kv_KeyValue) :
  delivers log i ctx N L -> 0 < count (@is_RecordOne _ _ _) log.
Proof.
  intros H.
  inversion H as [ ? ? ? ? Hin | ? ? ? ? b pre mid post Hlog ]; subst.
  - destruct (in_split _ _ Hin) as (l1 & l2 & ->).
    rewrite count_app, count_cons. cbn [is_RecordOne Nat.b2n]. lia.
  - rewrite count_app, count_cons, count_app, count_cons.
    cbn [is_RecordOne Nat.b2n]. lia.
Qed.

(** *** Deliveries over a longer log *)

Lemma delivers_app (log more : Log) (i : SyncObj) (ctx : context_Context)
  (N : Number) (L : list kv_KeyValue) :
  delivers log i ctx N L -> delivers (log ++ more) i ctx N L.
Proof.
  intros H.
  inversion H as [ ? ? ? ? Hin | ? ? ? ? b pre mid post Hlog ]; subst.
  - apply delivers_unbound. apply in_or_app. left. exact Hin.
  - apply delivers_bound with (b := b) (before := pre) (between := mid)
                              (after := post ++ more).
    rewrite <- app_assoc. cbn [app]. rewrite <- app_assoc. reflexivity.
Qed.

(** Whatever was logged before, a [directRecord] on an unbound handle
    hands the SDK its recording, under the labels it was given, and takes
    away none of the recordings the log delivered before. *)
Theorem directRecord_extends_deliveries
  (i : SyncObj) (ctx : context_Context) (N : Number)
  (L : list kv_KeyValue) (m : Mach) :
  delivers
    (calls (machine_of
       (syncInstrument_directRecord
          {| syncInstrument_instrument := Some (object i) |} ctx N L m)))
    i ctx N L /\
  (forall i' c n l,
     delivers (calls m) i' c n l ->
     delivers
       (calls (machine_of
          (syncInstrument_directRecord
             {| syncInstrument_instrument := Some (object i) |} ctx N L m)))
       i' c n l).
Proof.
  rewrite directRecord_step. cbn [machine_of calls]. split.
  - apply delivers_unbound. apply in_or_app. right. left. reflexivity.
  - intros i' c n l H. apply delivers_app. exact H.
Qed.

(** Once the log holds the [Bind] that returned a bound instrument, any
    later [directRecord] on its bound handle hands the SDK a recording
    under the labels of that [Bind]. *)
Theorem bound_directRecord_delivers_under_Bind_labels
  (i : SyncObj) (b : BoundObj) (L : list kv_KeyValue)
  (ctx : context_Context) (V : Number) (m : Mach) :
  In (Call_Bind i L (Some (object b))) (calls m) ->
  delivers
    (calls (machine_of
       (syncBoundInstrument_directRecord
          {| syncBoundInstrument_boundInstrument := Some (object b) |} ctx V m)))
    i ctx V L.
Proof.
  intros Hin. rewrite bound_directRecord_step. cbn [machine_of calls].
  destruct (in_split _ _ Hin) as (l1 & l2 & Hlog). rewrite Hlog.
  apply delivers_bound with (b := b) (before := l1) (between := l2)
                            (after := []).
  rewrite <- app_assoc. reflexivity.
Qed.

End Compositions.

Lemma nil_Bind_result_on_unbindable_sdk :
  SyncImpl_Bind Mock.unbindable Mock.kv [] = (None, [Mock.Bound Mock.kv]) /\
  syncBoundInstrument_directRecord
    {| syncBoundInstrument_boundInstrument := None |} 0 (NewInt64Number 5%Z)
    {| world := [Mock.Bound Mock.kv];
       calls := [Call_Bind Mock.unbindable Mock.kv None] |}
  = Panicked
      {| world := [Mock.Bound Mock.kv];
         calls := [Call_Bind Mock.unbindable Mock.kv None] |} /\
  bind_record_unbind
    {| syncInstrument_instrument := Some (object Mock.unbindable) |}
    Mock.kv 0 (NewInt64Number 5%Z) (boot [])
  = Panicked
      {| world := [Mock.Bound Mock.kv];
         calls := [Call_Bind Mock.unbindable Mock.kv None] |}.
Proof.
  pose proof (@nil_Bind_result_panics_after_the_Bind _ _ _
                Mock.unbindable Mock.kv 0 (NewInt64Number 5%Z) (boot [])
                [Mock.Bound Mock.kv] eq_refl)
    as (_ & Hrecord & _ & Hrun & _).
  split; [ reflexivity | ].
  split; [ exact Hrecord | exact Hrun ].
Defined.

Lemma bound_directRecord_on_recording_sdk :
  In (Call_Bind Mock.counter Mock.kv (Some (object (Mock.bound Mock.kv))))
    [Call_Bind Mock.counter Mock.kv (Some (object (Mock.bound Mock.kv)))] /\
  delivers
    [Call_Bind Mock.counter Mock.kv (Some (object (Mock.bound Mock.kv)));
     Call_BoundRecordOne (Mock.bound Mock.kv) 0 (Int64Number 5%Z)]
    Mock.counter 0 (Int64Number 5%Z) Mock.kv.
Proof.
  split; [ left; reflexivity | ].
  exact (@bound_directRecord_delivers_under_Bind_labels _ _ _
           Mock.counter (Mock.bound Mock.kv) Mock.kv 0 (Int64Number 5%Z)
           {| world := [Mock.Bound Mock.kv];
              calls := [Call_Bind Mock.counter Mock.kv
                          (Some (object (Mock.bound Mock.kv)))] |}
           (or_introl eq_refl)).
Defined.


(** ** Where two claims stop *)

(** A non-nil interface holding a nil pointer passes the check as it is,
    with a nil error, and the methods of the checked handle that call the
    SDK panic. *)
Lemma checked_handle_around_nil_pointer_panics :
  syncInstrument_SyncImpl
    (fst (checkNewSync
            (Some nil_pointer : SyncImpl Mock.World nat (string * string))
            None))
  = Some nil_pointer /\
  snd (checkNewSync
         (Some nil_pointer : SyncImpl Mock.World nat (string * string)) None)
  = None /\
  syncInstrument_directRecord
    (fst (checkNewSync
            (Some nil_pointer : SyncImpl Mock.World nat (string * string))
            None))
    0 (NewInt64Number 5%Z) Mock.kv (boot [])
  = Panicked (boot []) /\
  returns
    (syncInstrument_bind
       (fst (checkNewSync
               (Some nil_pointer : SyncImpl Mock.World nat (string * string))
               None))
       Mock.kv (boot []))
  = false /\
  ~ (forall (i : SyncImpl Mock.World nat (string * string)) (e : error)
       (f : syncMethod nat (string * string))
       (m : Machine Mock.World nat (string * string)),
       returns (syncInstrument_call (fst (checkNewSync i e)) f m) = true).
Proof.
  repeat split.
  intros Hsafe.
  specialize (Hsafe (Some nil_pointer) None
                (Method_directRecord 0 (NewInt64Number 5%Z) Mock.kv)
                (boot [])).
  discriminate Hsafe.
Qed.

(** On an SDK whose [Bind] answers nil, binding and recording through the
    bound handle panics after the [Bind] and delivers nothing, while
    recording through the unbound handle returns and delivers the
    recording: the two are not equivalent. *)
Lemma record_through_nil_Bind_is_not_equivalent :
  record_through_bind
    {| syncInstrument_instrument := Some (object Mock.unbindable) |}
    Mock.kv 0 (NewInt64Number 5%Z) (boot [])
  = Panicked
      {| world := [Mock.Bound Mock.kv];
         calls := [Call_Bind Mock.unbindable Mock.kv None] |} /\
  syncInstrument_directRecord
    {| syncInstrument_instrument := Some (object Mock.unbindable) |}
    0 (NewInt64Number 5%Z) Mock.kv (boot [])
  = Returned tt
      {| world := [Mock.Recorded 0 (Int64Number 5%Z) Mock.kv];
         calls := [Call_RecordOne Mock.unbindable 0 (Int64Number 5%Z)
                     Mock.kv] |} /\
  delivers
    (calls (machine_of
       (syncInstrument_directRecord
          {| syncInstrument_instrument := Some (object Mock.unbindable) |}
          0 (NewInt64Number 5%Z) Mock.kv (boot []))))
    Mock.unbindable 0 (Int64Number 5%Z) Mock.kv /\
  ~ delivers
      (calls (machine_of
         (record_through_bind
            {| syncInstrument_instrument := Some (object Mock.unbindable) |}
            Mock.kv 0 (NewInt64Number 5%Z) (boot []))))
      Mock.unbindable 0 (Int64Number 5%Z) Mock.kv.
Proof.
  split; [ reflexivity | ].
  split; [ reflexivity | ].
  split.
  - apply delivers_unbound. left. reflexivity.
  - intros H. apply delivers_has_RecordOne in H.
    cbv in H. lia.
Qed.
